(** * The validator of oss-directory: [src/validator/index.ts]

    A shallow embedding of the validate / cast / load pipeline and the
    properties its specification states about it.

    The module talks to four collaborators it does not implement: the Ajv
    instance holding the compiled schemas, the two parsers ([JSON.parse] and
    [YAML.parse]) and [readFile].  They appear here as the interface the code
    consumes, exceptions included; the functions of the module are
    parameterised by them.  Values of TypeScript type [any] are an arbitrary
    type [Value]: the module never inspects them, it only hands them to a
    compiled validator and back to the caller. *)

From stdpp Require Import base strings list gmap fin_maps.

(** ** JavaScript truthiness of the strings that occur *)

(** A string is falsy exactly when it is empty. *)
Definition truthy (s : string) : bool :=
  match s with
  | EmptyString => false
  | String _ _ => true
  end.

(** [x || d] for an [x] that is a string or [undefined]. *)
Definition or_else (x : option string) (d : string) : string :=
  match x with
  | Some s => if truthy s then s else d
  | None => d
  end.

(** [x || []] for an [x] that is an array or [null]: every array is truthy,
    the empty one too. *)
Definition or_nil {A : Type} (x : option (list A)) : list A :=
  match x with
  | Some l => l
  | None => []
  end.

(** [x ?? d]: only [null] and [undefined] give way to [d]. *)
Definition nullish {A : Type} (x : option A) (d : A) : A :=
  match x with
  | Some a => a
  | None => d
  end.

(** [o[key] = value] for a plain object [o] (made by the literal [{}]) and a
    string [value]: the assignment makes or overwrites an own property,
    except for the key [__proto__], which reaches the setter inherited from
    [Object.prototype]; that setter ignores a value that is not an object, so
    nothing is stored. *)
Definition assign (o : gmap string string) (key value : string)
    : gmap string string :=
  if decide (key = "__proto__") then o else <[key := value]> o.

(** What a call of a collaborator comes back with: a value, or the message
    of the exception it raised. *)
Inductive Outcome (A : Type) : Type :=
  | Gives (a : A)
  | Raises (detail : string).
Arguments Gives {A} a.
Arguments Raises {A} detail.

(** ** The interface of Ajv that the module consumes *)

Module Ajv.

(** The two fields of an Ajv error object that are read:
    [e.params.missingProperty] (set by the [required] keyword only) and
    [e.message] (declared optional by Ajv's types). *)
Record ErrorObject : Type := {
  missingProperty : option string;
  message : option string
}.

(** What a completed call [validate(obj)] leaves behind: the boolean it
    returns and the [validate.errors] property, which is [null] or an
    array. *)
Record Verdict : Type := {
  passed : bool;
  errors : option (list ErrorObject)
}.

(** A compiled validator.  The generated code reads the properties of the
    object it is given, so a call can also end in an exception: that of an
    accessor of the object that throws. *)
Definition ValidateFunction (Value : Type) : Type := Value → Outcome Verdict.

(** An Ajv instance, as far as the module uses it: what [getSchema] does
    with a key.  It answers with a compiled validator or with [undefined],
    or it throws. *)
Definition Instance (Value : Type) : Type :=
  string → Outcome (option (ValidateFunction Value)).

(** [ajv.getSchema(key)]. *)
Definition getSchema {Value : Type} (ajv : Instance Value) (key : string)
    : Outcome (option (ValidateFunction Value)) :=
  ajv key.

End Ajv.

(** ** Effects: console output and exceptions *)

(** What the module and its collaborators throw.  [Error message] is
    [new Error(message)]; the other constructors carry what a collaborator
    threw: [readFile]'s rejection, a parser's syntax error, an exception out
    of [ajv.getSchema] or out of a compiled validator, and the error of
    [assertNever]. *)
Inductive Thrown : Type :=
  | IOFailure (detail : string)
  | ParseFailed (detail : string)
  | AjvFailure (detail : string)
  | UnreachableFormat (format : string)
  | Error (message : string).

(** The [message] of what was thrown, which is all that tells a caller one
    error from another.  The text of [assertNever]'s error is not in the
    sources. *)
Definition thrown_message (e : Thrown) : option string :=
  match e with
  | IOFailure detail | ParseFailed detail | AjvFailure detail => Some detail
  | Error message => Some message
  | UnreachableFormat _ => None
  end.

Inductive Completion (A : Type) : Type :=
  | Return (a : A)
  | Throw (e : Thrown).
Arguments Return {A} a.
Arguments Throw {A} e.

(** One call of [console.warn] with an error map as its argument. *)
Inductive Console : Type :=
  | Warn (payload : gmap string string).

(** A computation: the console lines it wrote, in order, and how it ended. *)
Record M (A : Type) : Type := Run {
  output : list Console;
  completion : Completion A
}.
Arguments Run {A} output completion.
Arguments output {A} m.
Arguments completion {A} m.

#[export] Instance M_ret : MRet M := λ A a, Run [] (Return a).

#[export] Instance M_bind : MBind M := λ A B f m,
  match completion m with
  | Return a => Run (output m ++ output (f a)) (completion (f a))
  | Throw e => Run (output m) (Throw e)
  end.

Definition throw {A : Type} (e : Thrown) : M A := Run [] (Throw e).

Definition console_warn (payload : gmap string string) : M unit :=
  Run [Warn payload] (Return tt).

(** A collaborator call inside the module: nothing catches its exception, so
    it propagates. *)
Definition call {A : Type} (kind : string → Thrown) (o : Outcome A) : M A :=
  match o with
  | Gives a => mret a
  | Raises detail => throw (kind detail)
  end.

(** ** The module *)

Definition PROJECT_SCHEMA : string := "project.json".
Definition COLLECTION_SCHEMA : string := "collection.json".
Definition URL_SCHEMA : string := "url.json".
Definition BLOCKCHAIN_ADDRESS_SCHEMA : string := "blockchain-address.json".

Record ValidationResult : Type := {
  valid : bool;
  errors : gmap string string
}.

(** The body of the loop over [validate.errors]. *)
Definition record_error (errors : gmap string string) (e : Ajv.ErrorObject)
    : gmap string string :=
  let key := or_else (Ajv.missingProperty e) "other" in
  match Ajv.message e with
  | Some message =>
      if truthy key && truthy message then assign errors key message
      else errors
  | None => errors
  end.

Section Validator.

Context {Value : Type}.

Definition validateObject (ajv : Ajv.Instance Value)
    (obj : Value) (schemaName : string) : M ValidationResult :=
  validate ← call AjvFailure (Ajv.getSchema ajv schemaName);
  match validate with
  | None =>
      mret {| valid := false; errors := {[ "schema" := "Schema not found" ]} |}
  | Some validate =>
      verdict ← call AjvFailure (validate obj);
      if negb (Ajv.passed verdict) then
        let errors := foldl record_error ∅ (or_nil (Ajv.errors verdict)) in
        mret {| valid := false; errors := errors |}
      else
        mret {| valid := true; errors := ∅ |}
  end.

Definition safeCastObject (ajv : Ajv.Instance Value)
    (obj : Value) (schemaName : string) : M Value :=
  result ← validateObject ajv obj schemaName;
  if negb (valid result) then
    console_warn (errors result);;
    throw (Error ("Invalid " +:+ schemaName))
  else
    mret obj.

(** *** Reading files *)

(** [FileFormat] is the union of the string literals [JSON] and [YAML];
    at run time a format is a string. *)
Definition FileFormat : Type := string.

(** [DEFAULT_FORMAT] is declared in [types/files.ts]. *)
Variable DEFAULT_FORMAT : FileFormat.

(** [readFile(filename, { encoding: "utf-8" })], awaited, and the parsers. *)
Variable readFile : string → Outcome string.
Variable JSON_parse : string → Outcome Value.
Variable YAML_parse : string → Outcome Value.

(** Modelled from the spec: [assertNever] of [utils/common.ts], a helper
    that never returns: it "fails fatally with an unreachable-state error"
    for the value it was handed. *)
Definition assertNever {A : Type} (x : FileFormat) : M A :=
  throw (UnreachableFormat x).

Definition readFileToObject (ajv : Ajv.Instance Value)
    (filename : string) (format : FileFormat) (schemaName : string)
    : M Value :=
  fileContents ← call IOFailure (readFile filename);
  obj ←
    (if String.eqb format "JSON" then
       call ParseFailed (JSON_parse fileContents)
     else if String.eqb format "YAML" then
       call ParseFailed (YAML_parse fileContents)
     else
       assertNever format);
  safeCastObject ajv obj schemaName.

(** *** The module-level Ajv instance and the public functions *)

(** The validate functions that the four bundled schema documents of
    [resources/schema/] compile to. *)
Variables projectSchema collectionSchema : Ajv.ValidateFunction Value.
Variables urlSchema blockchainAddressSchema : Ajv.ValidateFunction Value.

(** What the finished instance does with every other key.  That is Ajv's
    business: it holds the meta-schema it registered itself, it normalises
    keys and follows JSON pointers into the schemas it has, and for some
    keys it throws. *)
Variable elsewhere : Ajv.Instance Value.

(** The instance after the four calls of [addSchema]: each of the four keys
    gives the schema that was added under it. *)
Definition ajv : Ajv.Instance Value := λ key,
  if decide (key = PROJECT_SCHEMA) then Gives (Some projectSchema)
  else if decide (key = COLLECTION_SCHEMA) then Gives (Some collectionSchema)
  else if decide (key = URL_SCHEMA) then Gives (Some urlSchema)
  else if decide (key = BLOCKCHAIN_ADDRESS_SCHEMA) then
    Gives (Some blockchainAddressSchema)
  else elsewhere key.

Definition validateProject (obj : Value) : M ValidationResult :=
  validateObject ajv obj PROJECT_SCHEMA.

Definition validateCollection (obj : Value) : M ValidationResult :=
  validateObject ajv obj COLLECTION_SCHEMA.

Definition safeCastProject (obj : Value) : M Value :=
  safeCastObject ajv obj PROJECT_SCHEMA.

Definition safeCastCollection (obj : Value) : M Value :=
  safeCastObject ajv obj COLLECTION_SCHEMA.

Record ReadOptions : Type := { format : option FileFormat }.

(** [opts?.format]. *)
Definition opt_format (opts : option ReadOptions) : option FileFormat :=
  match opts with
  | Some o => format o
  | None => None
  end.

Definition readProjectFile (filename : string) (opts : option ReadOptions)
    : M Value :=
  readFileToObject ajv filename (nullish (opt_format opts) DEFAULT_FORMAT)
    PROJECT_SCHEMA.

Definition readCollectionFile (filename : string) (opts : option ReadOptions)
    : M Value :=
  readFileToObject ajv filename (nullish (opt_format opts) DEFAULT_FORMAT)
    COLLECTION_SCHEMA.

End Validator.

(** ** The error map, in the words of the specification *)

(** The missing-property name of an error "when present": the code tests it
    with [||], so an absent name and an empty one are both not present. *)
Definition missing_property_name (e : Ajv.ErrorObject) : option string :=
  match Ajv.missingProperty e with
  | Some p => if truthy p then Some p else None
  | None => None
  end.

(** "Missing-property name, else [other]". *)
Definition error_key (e : Ajv.ErrorObject) : string :=
  match missing_property_name e with
  | Some p => p
  | None => "other"
  end.

(** The message of an error that carries a non-empty one. *)
Definition carried_message (e : Ajv.ErrorObject) : option string :=
  match Ajv.message e with
  | Some message => if truthy message then Some message else None
  | None => None
  end.

(** The messages that are recorded under the key [k], in the order of the
    validator's error list. *)
Definition recorded_under (k : string) (errs : list Ajv.ErrorObject)
    : list string :=
  omap (λ e, if decide (error_key e = k) then carried_message e else None) errs.

(** "Later iterations silently overwrite earlier ones sharing the same key":
    what survives under [k] is the last message recorded under it. *)
Definition collapsed (errs : list Ajv.ErrorObject) (k : string)
    : option string :=
  last (recorded_under k errs).


(** The keys of the errors that are recorded, one per error, in the order of
    the validator's error list. *)
Definition carried_keys (errs : list Ajv.ErrorObject) : list string :=
  omap (λ e, match carried_message e with
             | Some _ => Some (error_key e)
             | None => None
             end) errs.

(** A message "of the form [Invalid ...]". *)
Definition invalid_form (message : string) : Prop :=
  ∃ rest, message = "Invalid " +:+ rest.


(** ** A small host to run the module on *)

Module Fixture.

(** JavaScript values: the documents that the parsers produce; [Bare], an
    object without a prototype, as [Object.create(null)] makes it; and
    [Trapped], an object with an accessor property whose getter throws an
    error with the given message. *)
#[local] Unset Elimination Schemes.
Inductive Json : Type :=
  | Null
  | Bool (b : bool)
  | Number (n : Z)
  | Str (s : string)
  | Array (items : list Json)
  | Object (members : list (string * Json))
  | Bare (members : list (string * Json))
  | Trapped (message : string).
#[local] Set Elimination Schemes.

Inductive JsonType : Type := TBoolean | TNumber | TString | TArray | TObject.

Definition type_name (t : JsonType) : string :=
  match t with
  | TBoolean => "boolean"
  | TNumber => "number"
  | TString => "string"
  | TArray => "array"
  | TObject => "object"
  end.

Definition has_type (t : JsonType) (v : Json) : bool :=
  match t, v with
  | TBoolean, Bool _ | TNumber, Number _ | TString, Str _
  | TArray, Array _ | TObject, Object _ | TObject, Bare _ => true
  | _, _ => false
  end.

Fixpoint member (k : string) (members : list (string * Json)) : option Json :=
  match members with
  | [] => None
  | (k', v) :: rest => if String.eqb k k' then Some v else member k rest
  end.

(** A schema document with the keywords [type: object], [required] and
    [properties] with a [type] each. *)
Record Schema : Type := {
  required : list string;
  properties : list (string * JsonType)
}.

Definition required_error (p : string) : Ajv.ErrorObject :=
  {| Ajv.missingProperty := Some p;
     Ajv.message := Some ("must have required property '" +:+ p +:+ "'") |}.

Definition type_error (t : JsonType) : Ajv.ErrorObject :=
  {| Ajv.missingProperty := None;
     Ajv.message := Some ("must be " +:+ type_name t) |}.

(** The names that every object with a prototype inherits from
    [Object.prototype]. *)
Definition inherited : list string :=
  ["__proto__"; "constructor"; "hasOwnProperty"; "isPrototypeOf";
   "propertyIsEnumerable"; "toLocaleString"; "toString"; "valueOf"].

(** The errors of all the keywords on an object, as with [allErrors: true]:
    [required] is checked before [properties].  A required property is
    missing when reading it gives [undefined], which an inherited one does
    not. *)
Definition object_violations (s : Schema) (members : list (string * Json))
    (prototype : bool) : list Ajv.ErrorObject :=
  omap (λ p, match member p members with
             | Some _ => None
             | None =>
                 if prototype && bool_decide (p ∈ inherited) then None
                 else Some (required_error p)
             end) (required s)
  ++ omap (λ pt, match member pt.1 members with
                 | Some x => if has_type pt.2 x then None
                             else Some (type_error pt.2)
                 | None => None
                 end) (properties s).

Definition violations (s : Schema) (v : Json) : list Ajv.ErrorObject :=
  match v with
  | Object members => object_violations s members true
  | Bare members => object_violations s members false
  | _ => [type_error TObject]
  end.

Definition verdict_of (errs : list Ajv.ErrorObject) : Ajv.Verdict :=
  match errs with
  | [] => {| Ajv.passed := true; Ajv.errors := None |}
  | _ => {| Ajv.passed := false; Ajv.errors := Some errs |}
  end.

(** The validator of a schema: it reads the object, so the getter of a
    [Trapped] object throws through it. *)
Definition compile (s : Schema) : Ajv.ValidateFunction Json := λ v,
  match v with
  | Trapped message => Raises message
  | _ => Gives (verdict_of (violations s v))
  end.

Definition projectSchema : Ajv.ValidateFunction Json :=
  compile {| required := ["version"; "name"];
             properties := [("version", TNumber); ("name", TString);
                            ("description", TString)] |}.

Definition collectionSchema : Ajv.ValidateFunction Json :=
  compile {| required := ["version"; "name"; "projects"];
             properties := [("version", TNumber); ("name", TString);
                            ("projects", TArray)] |}.

Definition urlSchema : Ajv.ValidateFunction Json :=
  compile {| required := ["url"]; properties := [("url", TString)] |}.

Definition blockchainAddressSchema : Ajv.ValidateFunction Json :=
  compile {| required := ["address"]; properties := [("address", TString)] |}.

(** The instance of the module with these four schemas, every other key
    giving [undefined]. *)
Definition ajv : Ajv.Instance Json :=
  ajv projectSchema collectionSchema urlSchema blockchainAddressSchema
    (λ _, Gives None).

(** An instance with one schema. *)
Definition only (key : string) (validate : Ajv.ValidateFunction Json)
    : Ajv.Instance Json := λ k,
  if decide (k = key) then Gives (Some validate) else Gives None.



(** Documents: a valid project, one whose [name] is missing and whose
    [version] is a string, one with two properties of the wrong type, and
    one with these two and empty [links]. *)
Definition good_project : Json :=
  Object [("version", Number 7); ("name", Str "oso")].

Definition nameless_project : Json :=
  Object [("version", Str "seven")].

Definition mistyped_project : Json :=
  Object [("version", Str "seven"); ("name", Number 3)].


(** The text of a YAML document that is one double-quoted scalar with the
    escape [\c], which YAML does not have. *)
Definition double_quote : string :=
  String (Ascii.Ascii false true false false false true false false)
    EmptyString.

Definition bad_escape : string := double_quote +:+ "\c" +:+ double_quote.

(** Parsers that know a handful of texts. *)
Definition JSON_parse (text : string) : Outcome Json :=
  if String.eqb text "null" then Gives Null
  else if String.eqb text "{}" then Gives (Object [])
  else if String.eqb text "[]" then Gives (Array [])
  else Raises "Unexpected token in JSON at position 0".

Definition YAML_parse (text : string) : Outcome Json :=
  if String.eqb text "name: oso" then Gives (Object [("name", Str "oso")])
  else if String.eqb text "{}" then Gives (Object [])
  else if String.eqb text bad_escape then
    Raises "Invalid escape sequence \c at line 1, column 2"
  else Raises "Nested mappings are not allowed in compact mappings".

(** A file system with four files. *)
Definition files : gmap string string :=
  {[ "empty.json" := "{}"; "oso.yaml" := "name: oso"; "broken.json" := "{";
     "escape.yaml" := bad_escape ]}.

Definition readFile (filename : string) : Outcome string :=
  match files !! filename with
  | Some contents => Gives contents
  | None => Raises "ENOENT: no such file or directory"
  end.

End Fixture.

(** A validate function that reports the errors of another one in the
    opposite order. *)
Definition reversed {Value : Type} (validate : Ajv.ValidateFunction Value)
    : Ajv.ValidateFunction Value := λ v,
  match validate v with
  | Gives verdict =>
      Gives {| Ajv.passed := Ajv.passed verdict;
               Ajv.errors := reverse <$> Ajv.errors verdict |}
  | Raises detail => Raises detail
  end.

(** ** Properties *)

(** *** The monad and the collaborator calls *)

Lemma mret_inj {A : Type} (a b : A) : mret (M:=M) a = mret b → a = b.
Proof. by intros [= ->]. Qed.

Lemma M_bind_ret {A B : Type} (a : A) (f : A → M B) : mret a ≫= f = f a.
Proof. unfold mbind, M_bind. cbn. by destruct (f a). Qed.

Lemma M_bind_throw {A B : Type} (e : Thrown) (f : A → M B) :
  throw e ≫= f = throw e.
Proof. done. Qed.

Lemma call_Gives {A : Type} (kind : string → Thrown) (a : A) :
  call kind (Gives a) = mret a.
Proof. done. Qed.

Lemma call_Raises {A : Type} (kind : string → Thrown) (detail : string) :
  call kind (Raises detail) = throw (A:=A) (kind detail).
Proof. done. Qed.

(** *** The loop that builds the error map *)

Lemma or_else_error_key e :
  or_else (Ajv.missingProperty e) "other" = error_key e.
Proof.
  unfold error_key, missing_property_name, or_else.
  destruct (Ajv.missingProperty e) as [p|]; [|done].
  by destruct (truthy p).
Qed.

Lemma truthy_error_key e : truthy (error_key e) = true.
Proof.
  unfold error_key, missing_property_name.
  destruct (Ajv.missingProperty e) as [p|]; [|done].
  by destruct (truthy p) eqn:Hp.
Qed.

Lemma record_error_carried errors e :
  record_error errors e =
    match carried_message e with
    | Some message => assign errors (error_key e) message
    | None => errors
    end.
Proof.
  unfold record_error, carried_message.
  rewrite or_else_error_key, truthy_error_key.
  destruct (Ajv.message e) as [message|]; [|done].
  by destruct (truthy message).
Qed.

Lemma recorded_under_cons k e errs :
  recorded_under k (e :: errs) =
    match (if decide (error_key e = k) then carried_message e else None) with
    | Some message => message :: recorded_under k errs
    | None => recorded_under k errs
    end.
Proof. done. Qed.

Lemma recorded_under_app k errs1 errs2 :
  recorded_under k (errs1 ++ errs2) =
    recorded_under k errs1 ++ recorded_under k errs2.
Proof. apply omap_app. Qed.

(** The map after the loop, key by key.  Nothing is ever stored under
    [__proto__]; under any other key the map holds the last message recorded
    under it if there is one, and what it held before otherwise. *)
Lemma foldl_record_error_lookup errs acc k :
  foldl record_error acc errs !! k =
    if decide (k = "__proto__") then acc !! k
    else match collapsed errs k with
         | Some message => Some message
         | None => acc !! k
         end.
Proof.
  revert acc. induction errs as [|e errs IH]; intros acc;
    [by destruct (decide _)|].
  cbn [foldl]. rewrite IH. unfold collapsed.
  rewrite recorded_under_cons, record_error_carried.
  destruct (decide (k = "__proto__")) as [->|Hproto].
  - destruct (carried_message e) as [message|]; [|done].
    unfold assign. destruct (decide (error_key e = "__proto__")); [done|].
    by rewrite lookup_insert_ne.
  - destruct (carried_message e) as [message|] eqn:Hmsg.
    + destruct (decide (error_key e = k)) as [->|Hne].
      * rewrite last_cons. destruct (last (recorded_under _ errs)); [done|].
        unfold assign. rewrite decide_False by done.
        by rewrite lookup_insert_eq.
      * unfold assign. destruct (decide (error_key e = "__proto__")); [done|].
        by rewrite lookup_insert_ne.
    + by destruct (decide (error_key e = k)).
Qed.

Lemma foldl_record_error_lookup_empty errs k :
  foldl record_error ∅ errs !! k =
    if decide (k = "__proto__") then None else collapsed errs k.
Proof.
  rewrite foldl_record_error_lookup, lookup_empty.
  destruct (decide _); [done|]. by destruct (collapsed _ k).
Qed.

Lemma recorded_under_other_nil k errs :
  Forall (λ e, error_key e ≠ k) errs → recorded_under k errs = [].
Proof.
  induction 1 as [|e errs Hne _ IH]; [done|].
  rewrite recorded_under_cons. by destruct (decide (error_key e = k)).
Qed.



(** *** What [validateObject] does, case by case *)

Lemma validateObject_cases {Value : Type} (ajv : Ajv.Instance Value)
    (obj : Value) (schemaName : string) :
  validateObject ajv obj schemaName =
    match Ajv.getSchema ajv schemaName with
    | Raises detail => throw (AjvFailure detail)
    | Gives None =>
        mret {| valid := false;
                errors := {[ "schema" := "Schema not found" ]} |}
    | Gives (Some validate) =>
        match validate obj with
        | Raises detail => throw (AjvFailure detail)
        | Gives verdict =>
            mret (if Ajv.passed verdict then {| valid := true; errors := ∅ |}
                  else {| valid := false;
                          errors := foldl record_error ∅
                                      (or_nil (Ajv.errors verdict)) |})
        end
    end.
Proof.
  unfold validateObject.
  destruct (Ajv.getSchema ajv schemaName) as [[validate|]|detail]; [| done..].
  rewrite call_Gives, M_bind_ret.
  destruct (validate obj) as [verdict|detail]; [|done].
  rewrite call_Gives, M_bind_ret. by destruct (Ajv.passed verdict).
Qed.




(** The key [other] is not reserved: a missing property that is itself
    called [other] is recorded under it like any violation of another kind. *)
Example missing_property_called_other :
  foldl record_error ∅
    [Fixture.type_error Fixture.TString; Fixture.required_error "other"]
    !! "other"
  = Some "must have required property 'other'".
Proof. by vm_compute. Qed.

(** The scenario of the specification: a project without [name]. *)
Example project_without_name :
  validateProject Fixture.projectSchema Fixture.collectionSchema
    Fixture.urlSchema Fixture.blockchainAddressSchema (λ _, Gives None)
    (Fixture.Object [("version", Fixture.Number 7)])
  = mret {| valid := false;
            errors := {[ "name" := "must have required property 'name'" ]} |}.
Proof. by vm_compute. Qed.

(** An input that is not an object at all is reported, not thrown. *)
Example project_null :
  validateProject Fixture.projectSchema Fixture.collectionSchema
    Fixture.urlSchema Fixture.blockchainAddressSchema (λ _, Gives None)
    Fixture.Null
  = mret {| valid := false; errors := {[ "other" := "must be object" ]} |}.
Proof. by vm_compute. Qed.

(** *** The result of [validateObject] *)

Lemma collapsed_Some_elem errs k v :
  collapsed errs k = Some v →
  ∃ e, e ∈ errs ∧ error_key e = k ∧ carried_message e = Some v.
Proof.
  intros Hlast%last_Some_elem_of. unfold recorded_under in Hlast.
  apply list_elem_of_omap in Hlast as (e & Hin & He).
  exists e. by destruct (decide (error_key e = k)).
Qed.

Lemma collapsed_is_Some errs k :
  is_Some (collapsed errs k) ↔
  ∃ e, e ∈ errs ∧ error_key e = k ∧ is_Some (carried_message e).
Proof.
  split.
  - intros [v (e & Hin & Hk & Hmsg)%collapsed_Some_elem]. by exists e.
  - intros (e & Hin & Hk & [v Hmsg]).
    apply list_elem_of_split in Hin as (errs1 & errs2 & ->).
    unfold collapsed.
    rewrite recorded_under_app, recorded_under_cons, (decide_True _ _ Hk), Hmsg.
    destruct (last _) eqn:Hlast; [done|].
    apply last_None in Hlast. by destruct (recorded_under _ errs1).
Qed.





(** C4. With a schema name for which [getSchema] gives [undefined],
    [validateObject] returns [{valid: false, errors: {schema: "Schema not
    found"}}]: it returns, it does not throw. *)
Theorem validateObject_schema_not_found {Value : Type}
    (ajv : Ajv.Instance Value) (obj : Value) (schemaName : string) :
  Ajv.getSchema ajv schemaName = Gives None →
  validateObject ajv obj schemaName
    = Run [] (Return {| valid := false;
                        errors := {[ "schema" := "Schema not found" ]} |}).
Proof. intros Hget. by rewrite validateObject_cases, Hget. Qed.

Lemma validateObject_schema_not_found_witness :
  validateObject Fixture.ajv Fixture.good_project "funding.json"
    = Run [] (Return {| valid := false;
                        errors := {[ "schema" := "Schema not found" ]} |}).
Proof.
  apply (validateObject_schema_not_found Fixture.ajv Fixture.good_project
           "funding.json").
  vm_compute. reflexivity.
Defined.

(** C8, as the code has it.  [validateObject], [validateProject] and
    [validateCollection] throw nothing of their own and catch nothing.  When
    the lookup of the schema and the call of the validator complete, they
    return a [ValidationResult]; when [getSchema] or the validator throws,
    for instance because an accessor of the object throws, that exception
    reaches the caller. *)
Theorem validateObject_returns_or_propagates {Value : Type} :
  (∀ (ajv : Ajv.Instance Value) (obj : Value) (schemaName : string),
     match Ajv.getSchema ajv schemaName with
     | Raises detail =>
         validateObject ajv obj schemaName
           = Run [] (Throw (AjvFailure detail))
     | Gives None =>
         ∃ result, validateObject ajv obj schemaName = Run [] (Return result)
     | Gives (Some validate) =>
         match validate obj with
         | Raises detail =>
             validateObject ajv obj schemaName
               = Run [] (Throw (AjvFailure detail))
         | Gives _ =>
             ∃ result,
               validateObject ajv obj schemaName = Run [] (Return result)
         end
     end)
  ∧ (∀ (projectSchema collectionSchema urlSchema blockchainAddressSchema
          : Ajv.ValidateFunction Value) (elsewhere : Ajv.Instance Value)
       (obj : Value),
       match projectSchema obj with
       | Raises detail =>
           validateProject projectSchema collectionSchema urlSchema
             blockchainAddressSchema elsewhere obj
             = Run [] (Throw (AjvFailure detail))
       | Gives _ =>
           ∃ result,
             validateProject projectSchema collectionSchema urlSchema
               blockchainAddressSchema elsewhere obj = Run [] (Return result)
       end
       ∧ match collectionSchema obj with
         | Raises detail =>
             validateCollection projectSchema collectionSchema urlSchema
               blockchainAddressSchema elsewhere obj
               = Run [] (Throw (AjvFailure detail))
         | Gives _ =>
             ∃ result,
               validateCollection projectSchema collectionSchema urlSchema
                 blockchainAddressSchema elsewhere obj
                 = Run [] (Return result)
         end).
Proof.
  assert (∀ (ajv : Ajv.Instance Value) (obj : Value) (schemaName : string),
            match Ajv.getSchema ajv schemaName with
            | Raises detail =>
                validateObject ajv obj schemaName
                  = Run [] (Throw (AjvFailure detail))
            | Gives None =>
                ∃ result,
                  validateObject ajv obj schemaName = Run [] (Return result)
            | Gives (Some validate) =>
                match validate obj with
                | Raises detail =>
                    validateObject ajv obj schemaName
                      = Run [] (Throw (AjvFailure detail))
                | Gives _ =>
                    ∃ result,
                      validateObject ajv obj schemaName
                        = Run [] (Return result)
                end
            end) as Hcases.
  { intros ajv obj schemaName. rewrite validateObject_cases.
    destruct (Ajv.getSchema ajv schemaName) as [[validate|]|detail];
      [|by eexists|done].
    destruct (validate obj); [by eexists|done]. }
  split; [done|]. intros p c u b elsewhere obj. split.
  - apply (Hcases (ajv p c u b elsewhere) obj PROJECT_SCHEMA).
  - apply (Hcases (ajv p c u b elsewhere) obj COLLECTION_SCHEMA).
Qed.

(** C8, as stated, fails: on an object with an accessor that throws, the
    validator throws while it reads the object and [validateProject] lets
    the exception through. *)
Lemma validateObject_returns_or_propagates_counterexample :
  validateProject Fixture.projectSchema Fixture.collectionSchema
      Fixture.urlSchema Fixture.blockchainAddressSchema (λ _, Gives None)
      (Fixture.Trapped "getter of name failed")
    = Run [] (Throw (AjvFailure "getter of name failed"))
  ∧ ¬ ∃ result,
        validateProject Fixture.projectSchema Fixture.collectionSchema
          Fixture.urlSchema Fixture.blockchainAddressSchema (λ _, Gives None)
          (Fixture.Trapped "getter of name failed")
        = Run [] (Return result).
Proof.
  split; [by vm_compute|]. by intros [result Hrun].
Qed.

(** *** Casting *)

Lemma safeCastObject_after {Value : Type}
    (ajv : Ajv.Instance Value) (obj : Value)
    (schemaName : string) (result : ValidationResult) :
  validateObject ajv obj schemaName = mret result →
  safeCastObject ajv obj schemaName =
    if valid result then Run [] (Return obj)
    else Run [Warn (errors result)]
           (Throw (Error ("Invalid " +:+ schemaName))).
Proof.
  intros Hrun. unfold safeCastObject. rewrite Hrun.
  by destruct result as [[] errors].
Qed.

(** C3. On an object that fails validation, [safeCastObject] writes the
    error map to the console as one warning and then throws
    [new Error("Invalid " + schemaName)].  What is thrown depends on the
    schema name only: any other failing object, whatever its error map, makes
    it throw the same error. *)
Theorem safeCastObject_invalid {Value : Type}
    (ajv : Ajv.Instance Value) (obj : Value)
    (schemaName : string) (result : ValidationResult) :
  validateObject ajv obj schemaName = mret result →
  valid result = false →
  safeCastObject ajv obj schemaName
    = Run [Warn (errors result)] (Throw (Error ("Invalid " +:+ schemaName)))
  ∧ (∀ obj' result',
       validateObject ajv obj' schemaName = mret result' →
       valid result' = false →
       completion (safeCastObject ajv obj' schemaName)
         = completion (safeCastObject ajv obj schemaName)).
Proof.
  intros Hrun Hinvalid. split.
  - by rewrite (safeCastObject_after _ _ _ _ Hrun), Hinvalid.
  - intros obj' result' Hrun' Hinvalid'.
    rewrite (safeCastObject_after _ _ _ _ Hrun), Hinvalid.
    by rewrite (safeCastObject_after _ _ _ _ Hrun'), Hinvalid'.
Qed.

Lemma safeCastObject_invalid_witness :
  safeCastObject Fixture.ajv Fixture.nameless_project PROJECT_SCHEMA
    = Run [Warn {[ "name" := "must have required property 'name'";
                   "other" := "must be number" ]}]
        (Throw (Error "Invalid project.json"))
  ∧ completion (safeCastObject Fixture.ajv Fixture.Null PROJECT_SCHEMA)
    = Throw (Error "Invalid project.json").
Proof.
  destruct (safeCastObject_invalid Fixture.ajv Fixture.nameless_project
              PROJECT_SCHEMA
              {| valid := false;
                 errors := {[ "name" := "must have required property 'name'";
                              "other" := "must be number" ]} |})
    as [Hthrows Hsame]; [by vm_compute | done |].
  split; [exact Hthrows|].
  rewrite (Hsame Fixture.Null
             {| valid := false; errors := {[ "other" := "must be object" ]} |}),
    Hthrows; [done | by vm_compute | done].
Defined.

(** C5. On an object that validates, [safeCastObject] returns the object it
    was given, and writes nothing. *)
Theorem safeCastObject_valid {Value : Type}
    (ajv : Ajv.Instance Value) (obj : Value)
    (schemaName : string) (result : ValidationResult) :
  validateObject ajv obj schemaName = mret result →
  valid result = true →
  safeCastObject ajv obj schemaName = Run [] (Return obj).
Proof.
  intros Hrun Hvalid. by rewrite (safeCastObject_after _ _ _ _ Hrun), Hvalid.
Qed.

Lemma safeCastObject_valid_witness :
  safeCastProject Fixture.projectSchema Fixture.collectionSchema
      Fixture.urlSchema Fixture.blockchainAddressSchema (λ _, Gives None)
      Fixture.good_project
    = Run [] (Return Fixture.good_project).
Proof.
  apply (safeCastObject_valid Fixture.ajv Fixture.good_project PROJECT_SCHEMA
           {| valid := true; errors := ∅ |}); [by vm_compute | done].
Defined.

(** C10. The schema names of the public functions end in [.json]: on an
    object that fails project validation [safeCastProject] throws the error
    with the message [Invalid project.json], and on one that fails collection
    validation [safeCastCollection] throws the one with the message
    [Invalid collection.json]. *)
Theorem safeCast_public_messages {Value : Type}
    (projectSchema collectionSchema urlSchema blockchainAddressSchema
       : Ajv.ValidateFunction Value) (elsewhere : Ajv.Instance Value)
    (obj : Value) :
  (∀ result,
     validateProject projectSchema collectionSchema urlSchema
       blockchainAddressSchema elsewhere obj = mret result →
     valid result = false →
     completion (safeCastProject projectSchema collectionSchema urlSchema
                   blockchainAddressSchema elsewhere obj)
       = Throw (Error "Invalid project.json"))
  ∧ (∀ result,
       validateCollection projectSchema collectionSchema urlSchema
         blockchainAddressSchema elsewhere obj = mret result →
       valid result = false →
       completion (safeCastCollection projectSchema collectionSchema urlSchema
                     blockchainAddressSchema elsewhere obj)
         = Throw (Error "Invalid collection.json")).
Proof.
  split; intros result Hrun Hinvalid.
  - unfold safeCastProject.
    by rewrite (safeCastObject_after _ _ _ _ Hrun), Hinvalid.
  - unfold safeCastCollection.
    by rewrite (safeCastObject_after _ _ _ _ Hrun), Hinvalid.
Qed.

Lemma safeCast_public_messages_witness :
  completion (safeCastProject Fixture.projectSchema Fixture.collectionSchema
                Fixture.urlSchema Fixture.blockchainAddressSchema
                (λ _, Gives None) Fixture.mistyped_project)
    = Throw (Error "Invalid project.json")
  ∧ completion (safeCastCollection Fixture.projectSchema
                  Fixture.collectionSchema Fixture.urlSchema
                  Fixture.blockchainAddressSchema (λ _, Gives None)
                  Fixture.good_project)
    = Throw (Error "Invalid collection.json").
Proof.
  destruct (safeCast_public_messages Fixture.projectSchema
              Fixture.collectionSchema Fixture.urlSchema
              Fixture.blockchainAddressSchema (λ _, Gives None)
              Fixture.mistyped_project)
    as [Hproject _].
  destruct (safeCast_public_messages Fixture.projectSchema
              Fixture.collectionSchema Fixture.urlSchema
              Fixture.blockchainAddressSchema (λ _, Gives None)
              Fixture.good_project)
    as [_ Hcollection].
  split.
  - apply (Hproject {| valid := false;
                       errors := {[ "other" := "must be string" ]} |});
      [by vm_compute | done].
  - apply (Hcollection
             {| valid := false;
                errors := {[ "projects" :=
                               "must have required property 'projects'" ]} |});
      [by vm_compute | done].
Defined.

(** *** Loading files *)

Section Loader.

Context {Value : Type}.
Context (DEFAULT_FORMAT : FileFormat).
Context (readFile : string → Outcome string).
Context (JSON_parse YAML_parse : string → Outcome Value).
Context (projectSchema collectionSchema : Ajv.ValidateFunction Value).
Context (urlSchema blockchainAddressSchema : Ajv.ValidateFunction Value).
Context (elsewhere : Ajv.Instance Value).

#[local] Abbreviation readFileToObject :=
  (readFileToObject readFile JSON_parse YAML_parse).
#[local] Abbreviation readProjectFile :=
  (readProjectFile DEFAULT_FORMAT readFile JSON_parse YAML_parse
     projectSchema collectionSchema urlSchema blockchainAddressSchema
     elsewhere).
#[local] Abbreviation readCollectionFile :=
  (readCollectionFile DEFAULT_FORMAT readFile JSON_parse YAML_parse
     projectSchema collectionSchema urlSchema blockchainAddressSchema
     elsewhere).

(** C9. [readProjectFile] and [readCollectionFile] called without a format
    (no options at all, or options without [format]) do what they do when
    [DEFAULT_FORMAT] is passed as the format. *)
Theorem read_default_format (filename : string) :
  let explicit := Some {| format := Some DEFAULT_FORMAT |} in
  readProjectFile filename None = readProjectFile filename explicit
  ∧ readProjectFile filename (Some {| format := None |})
    = readProjectFile filename explicit
  ∧ readCollectionFile filename None = readCollectionFile filename explicit
  ∧ readCollectionFile filename (Some {| format := None |})
    = readCollectionFile filename explicit.
Proof. done. Qed.

(** C6. Once the file is read, the format decides: [JSON] sends the text
    to [JSON.parse] and [YAML] sends it to [YAML.parse], the parsed value
    going on to [safeCastObject]; every other format value ends in the
    unreachable-state error of [assertNever], with no parser consulted and
    nothing cast. *)
Theorem readFileToObject_dispatch
    (ajv : Ajv.Instance Value)
    (filename : string) (format : FileFormat) (schemaName contents : string) :
  readFile filename = Gives contents →
  (format = "JSON" →
     readFileToObject ajv filename format schemaName
       = match JSON_parse contents with
         | Gives obj => safeCastObject ajv obj schemaName
         | Raises detail => Run [] (Throw (ParseFailed detail))
         end)
  ∧ (format = "YAML" →
       readFileToObject ajv filename format schemaName
         = match YAML_parse contents with
           | Gives obj => safeCastObject ajv obj schemaName
           | Raises detail => Run [] (Throw (ParseFailed detail))
           end)
  ∧ (format ≠ "JSON" → format ≠ "YAML" →
       readFileToObject ajv filename format schemaName
         = Run [] (Throw (UnreachableFormat format))).
Proof.
  intros Hread. unfold readFileToObject.
  rewrite Hread, call_Gives, M_bind_ret. split_and!.
  - intros ->. cbn [String.eqb Ascii.eqb Bool.eqb].
    destruct (JSON_parse contents) as [obj|detail]; [|done].
    by rewrite call_Gives, M_bind_ret.
  - intros ->. cbn [String.eqb Ascii.eqb Bool.eqb].
    destruct (YAML_parse contents) as [obj|detail]; [|done].
    by rewrite call_Gives, M_bind_ret.
  - intros HJSON HYAML.
    apply String.eqb_neq in HJSON, HYAML. by rewrite HJSON, HYAML.
Qed.

(** C7, as the code has it.  When the text of the file is malformed for the
    declared format, so that the parser of that format raises,
    [readFileToObject] throws what the parser raised, with the parser's
    message, untouched: it is the message [Invalid ...] of a failed
    validation only if the parser worded it so.  Nothing is validated
    before: the console stays empty and the outcome is the same for every
    Ajv instance and every schema name.  The same holds for
    [readProjectFile] and [readCollectionFile]. *)
Theorem readFileToObject_parse_error
    (ajv : Ajv.Instance Value)
    (filename : string) (format : FileFormat)
    (schemaName contents detail : string) :
  readFile filename = Gives contents →
  (format = "JSON" ∧ JSON_parse contents = Raises detail)
  ∨ (format = "YAML" ∧ YAML_parse contents = Raises detail) →
  readFileToObject ajv filename format schemaName
    = Run [] (Throw (ParseFailed detail))
  ∧ (∀ e, completion (readFileToObject ajv filename format schemaName)
            = Throw e →
          thrown_message e = Some detail
          ∧ (detail ≠ "Invalid " +:+ schemaName →
             thrown_message e ≠ Some ("Invalid " +:+ schemaName)))
  ∧ (∀ opts, nullish (opt_format opts) DEFAULT_FORMAT = format →
       readProjectFile filename opts = Run [] (Throw (ParseFailed detail))
       ∧ readCollectionFile filename opts
         = Run [] (Throw (ParseFailed detail))).
Proof.
  intros Hread Hparse.
  assert (∀ ajv' name,
            readFileToObject ajv' filename format name
              = Run [] (Throw (ParseFailed detail))) as Hthrows.
  { intros ajv' name. unfold readFileToObject.
    rewrite Hread, call_Gives, M_bind_ret.
    by destruct Hparse as [[-> ->]|[-> ->]]. }
  split_and!; [done | |].
  - rewrite Hthrows. intros e [= <-]. split; [done|]. by intros Hne [= ->].
  - intros opts Hformat. unfold readProjectFile, readCollectionFile.
    by rewrite Hformat, !Hthrows.
Qed.

End Loader.

Lemma readFileToObject_dispatch_witness :
  readFileToObject Fixture.readFile Fixture.JSON_parse Fixture.YAML_parse
      Fixture.ajv "oso.yaml" "YAML" PROJECT_SCHEMA
    = safeCastObject Fixture.ajv
        (Fixture.Object [("name", Fixture.Str "oso")]) PROJECT_SCHEMA
  ∧ readFileToObject Fixture.readFile Fixture.JSON_parse Fixture.YAML_parse
        Fixture.ajv "oso.yaml" "JSON" PROJECT_SCHEMA
    = Run [] (Throw (ParseFailed "Unexpected token in JSON at position 0"))
  ∧ readFileToObject Fixture.readFile Fixture.JSON_parse Fixture.YAML_parse
        Fixture.ajv "oso.yaml" "TOML" PROJECT_SCHEMA
    = Run [] (Throw (UnreachableFormat "TOML")).
Proof.
  split_and!.
  - by apply (readFileToObject_dispatch Fixture.readFile Fixture.JSON_parse
                Fixture.YAML_parse Fixture.ajv "oso.yaml" "YAML"
                PROJECT_SCHEMA "name: oso").
  - by apply (readFileToObject_dispatch Fixture.readFile Fixture.JSON_parse
                Fixture.YAML_parse Fixture.ajv "oso.yaml" "JSON"
                PROJECT_SCHEMA "name: oso").
  - by apply (readFileToObject_dispatch Fixture.readFile Fixture.JSON_parse
                Fixture.YAML_parse Fixture.ajv "oso.yaml" "TOML"
                PROJECT_SCHEMA "name: oso").
Defined.

Lemma readFileToObject_parse_error_witness :
  readFileToObject Fixture.readFile Fixture.JSON_parse Fixture.YAML_parse
      Fixture.ajv "broken.json" "JSON" COLLECTION_SCHEMA
    = Run [] (Throw (ParseFailed "Unexpected token in JSON at position 0"))
  ∧ thrown_message (ParseFailed "Unexpected token in JSON at position 0")
    ≠ Some "Invalid collection.json"
  ∧ readProjectFile "JSON" Fixture.readFile Fixture.JSON_parse
        Fixture.YAML_parse Fixture.projectSchema Fixture.collectionSchema
        Fixture.urlSchema Fixture.blockchainAddressSchema (λ _, Gives None)
        "broken.json" None
    = Run [] (Throw (ParseFailed "Unexpected token in JSON at position 0")).
Proof.
  destruct (readFileToObject_parse_error "JSON" Fixture.readFile
              Fixture.JSON_parse Fixture.YAML_parse Fixture.projectSchema
              Fixture.collectionSchema Fixture.urlSchema
              Fixture.blockchainAddressSchema (λ _, Gives None) Fixture.ajv
              "broken.json" "JSON"
              COLLECTION_SCHEMA "{" "Unexpected token in JSON at position 0")
    as (Hthrows & Hmessage & Hpublic); [done | by left |].
  split_and!; [exact Hthrows | | by apply Hpublic].
  apply Hmessage; [by rewrite Hthrows | done].
Defined.

(** C7, as stated, fails in its last part: the message of a parse error can
    itself be of the form [Invalid ...].  YAML has no escape [\c], and the
    parser reports it in a double-quoted scalar with a message that begins
    with these words. *)
Lemma readFileToObject_parse_error_counterexample :
  Fixture.readFile "escape.yaml" = Gives Fixture.bad_escape
  ∧ Fixture.YAML_parse Fixture.bad_escape
    = Raises "Invalid escape sequence \c at line 1, column 2"
  ∧ readFileToObject Fixture.readFile Fixture.JSON_parse Fixture.YAML_parse
        Fixture.ajv "escape.yaml" "YAML" PROJECT_SCHEMA
    = Run [] (Throw (ParseFailed
                       "Invalid escape sequence \c at line 1, column 2"))
  ∧ ∃ message,
      thrown_message
        (ParseFailed "Invalid escape sequence \c at line 1, column 2")
        = Some message
      ∧ invalid_form message.
Proof.
  split_and!; [by vm_compute.. |].
  eexists. split; [done|]. by eexists.
Qed.

(** ** Further properties of the module *)

(** *** What the error map holds *)

Lemma carried_message_Some e v :
  carried_message e = Some v → Ajv.message e = Some v ∧ v ≠ EmptyString.
Proof.
  unfold carried_message. destruct (Ajv.message e) as [message|]; [|done].
  destruct message; [done|]. by intros [= <-].
Qed.

Lemma error_key_nonempty e : error_key e ≠ EmptyString.
Proof.
  intros Hempty. pose proof (truthy_error_key e) as Htruthy.
  by rewrite Hempty in Htruthy.
Qed.

(** Every entry of the error map of a result is a failure report with a
    non-empty key and a non-empty message; the only entry made without a
    validator is [schema: "Schema not found"], every other entry repeats the
    key and the message of an error that the validator reported. *)
Theorem validateObject_errors_sound {Value : Type}
    (ajv : Ajv.Instance Value) (obj : Value)
    (schemaName : string) (result : ValidationResult) (k v : string) :
  validateObject ajv obj schemaName = mret result →
  errors result !! k = Some v →
  valid result = false ∧ k ≠ EmptyString ∧ v ≠ EmptyString
  ∧ match Ajv.getSchema ajv schemaName with
    | Gives None => k = "schema" ∧ v = "Schema not found"
    | Gives (Some validate) =>
        ∃ verdict e,
          validate obj = Gives verdict
          ∧ e ∈ or_nil (Ajv.errors verdict)
          ∧ error_key e = k ∧ Ajv.message e = Some v
    | Raises _ => False
    end.
Proof.
  rewrite validateObject_cases.
  destruct (Ajv.getSchema ajv schemaName) as [[validate|]|detail]; [| |done].
  - destruct (validate obj) as [verdict|detail]; [|done].
    destruct (Ajv.passed verdict); intros <-%mret_inj; cbn;
      [by rewrite lookup_empty|].
    rewrite foldl_record_error_lookup_empty.
    destruct (decide (k = "__proto__")); [done|].
    intros (e & Hin & <- & [Hmsg Hv]%carried_message_Some)%collapsed_Some_elem.
    split_and!; [done | apply error_key_nonempty | done | by exists verdict, e].
  - intros <-%mret_inj. cbn.
    by intros [<- <-]%lookup_singleton_Some.
Qed.

Lemma validateObject_errors_sound_witness :
  ∃ verdict e,
    Fixture.projectSchema Fixture.nameless_project = Gives verdict
    ∧ e ∈ or_nil (Ajv.errors verdict)
    ∧ error_key e = "name"
    ∧ Ajv.message e = Some "must have required property 'name'".
Proof.
  apply (validateObject_errors_sound Fixture.ajv Fixture.nameless_project
           PROJECT_SCHEMA
           {| valid := false;
              errors := {[ "name" := "must have required property 'name'";
                           "other" := "must be number" ]} |}
           "name" "must have required property 'name'");
    by vm_compute.
Defined.

(** When the validator of a registered schema fails, a key is in the error
    map exactly when it is not [__proto__] and some reported error with a
    non-empty message has that key.  So every missing property that is
    reported with a message and a name that is neither empty nor [__proto__]
    is a key of the map. *)
Theorem validateObject_errors_complete {Value : Type}
    (ajv : Ajv.Instance Value) (obj : Value)
    (schemaName : string) (validate : Ajv.ValidateFunction Value)
    (verdict : Ajv.Verdict) (result : ValidationResult) :
  Ajv.getSchema ajv schemaName = Gives (Some validate) →
  validate obj = Gives verdict →
  Ajv.passed verdict = false →
  validateObject ajv obj schemaName = mret result →
  (∀ k, is_Some (errors result !! k) ↔
        k ≠ "__proto__"
        ∧ ∃ e, e ∈ or_nil (Ajv.errors verdict)
               ∧ error_key e = k ∧ is_Some (carried_message e))
  ∧ (∀ e p, e ∈ or_nil (Ajv.errors verdict) →
            Ajv.missingProperty e = Some p →
            p ≠ EmptyString → p ≠ "__proto__" →
            is_Some (carried_message e) →
            is_Some (errors result !! p)).
Proof.
  intros Hget Hrun Hfail. rewrite validateObject_cases, Hget, Hrun, Hfail.
  intros <-%mret_inj. cbn.
  assert (∀ k, is_Some (foldl record_error ∅ (or_nil (Ajv.errors verdict))
                          !! k) ↔
               k ≠ "__proto__"
               ∧ ∃ e, e ∈ or_nil (Ajv.errors verdict)
                      ∧ error_key e = k ∧ is_Some (carried_message e)) as Hiff.
  { intros k. rewrite foldl_record_error_lookup_empty.
    destruct (decide (k = "__proto__")) as [->|Hproto].
    - split; [by intros [? ?] | by intros [? _]].
    - rewrite collapsed_is_Some. split; [by intros He | by intros [_ He]]. }
  split; [done|]. intros e p Hin Hp Hne Hproto Hmsg. apply Hiff.
  split; [done|]. exists e. split_and!; [done | | done].
  unfold error_key, missing_property_name. rewrite Hp. by destruct p.
Qed.

Lemma validateObject_errors_complete_witness :
  is_Some (errors {| valid := false;
                     errors :=
                       {[ "name" := "must have required property 'name'";
                          "other" := "must be number" ]} |} !! "name").
Proof.
  destruct (validateObject_errors_complete Fixture.ajv
              Fixture.nameless_project PROJECT_SCHEMA Fixture.projectSchema
              (Fixture.verdict_of [Fixture.required_error "name";
                                   Fixture.type_error Fixture.TNumber])
              {| valid := false;
                 errors := {[ "name" := "must have required property 'name'";
                              "other" := "must be number" ]} |})
    as [_ Hmissing]; [by vm_compute | by vm_compute | done | by vm_compute |].
  apply (Hmissing (Fixture.required_error "name")); [by left | done..].
Defined.

Lemma assign_size (o : gmap string string) (key value : string) :
  size (assign o key value) ≤ S (size o).
Proof.
  unfold assign. destruct (decide _); [lia|].
  destruct (o !! key) eqn:Hk.
  - rewrite map_size_insert_Some by done. lia.
  - rewrite map_size_insert_None by done. lia.
Qed.

Lemma foldl_record_error_size errs acc :
  size (foldl record_error acc errs) ≤ size acc + length errs.
Proof.
  revert acc. induction errs as [|e errs IH]; intros acc; cbn [foldl length];
    [lia|].
  etrans; [apply IH|]. rewrite record_error_carried.
  destruct (carried_message e) as [message|]; [|lia].
  pose proof (assign_size acc (error_key e) message). lia.
Qed.

(** When the validator of a registered schema completes, the error map has
    at most as many entries as the validator reported errors: entries are
    only ever merged, none is made up. *)
Theorem validateObject_errors_size {Value : Type}
    (ajv : Ajv.Instance Value) (obj : Value)
    (schemaName : string) (validate : Ajv.ValidateFunction Value)
    (result : ValidationResult) :
  Ajv.getSchema ajv schemaName = Gives (Some validate) →
  validateObject ajv obj schemaName = mret result →
  ∃ verdict,
    validate obj = Gives verdict
    ∧ size (errors result) ≤ length (or_nil (Ajv.errors verdict)).
Proof.
  intros Hget. rewrite validateObject_cases, Hget.
  destruct (validate obj) as [verdict|detail]; [|done].
  intros <-%mret_inj. exists verdict. split; [done|].
  destruct (Ajv.passed verdict); cbn.
  - rewrite map_size_empty. lia.
  - etrans; [apply foldl_record_error_size|]. by rewrite map_size_empty.
Qed.

Lemma validateObject_errors_size_witness :
  ∃ verdict,
    Fixture.projectSchema Fixture.mistyped_project = Gives verdict
    ∧ size (errors {| valid := false;
                      errors := {[ "other" := "must be string" ]} |})
      ≤ length (or_nil (Ajv.errors verdict)).
Proof.
  apply (validateObject_errors_size Fixture.ajv Fixture.mistyped_project
           PROJECT_SCHEMA Fixture.projectSchema
           {| valid := false; errors := {[ "other" := "must be string" ]} |});
    by vm_compute.
Defined.

(** *** The order of the validator's errors *)

Lemma recorded_under_not_carried k errs :
  k ∉ carried_keys errs → recorded_under k errs = [].
Proof.
  intros Hnotin. unfold recorded_under.
  destruct (omap _ errs) as [|v rest] eqn:Hrec; [done|].
  assert (v ∈ omap (λ e, if decide (error_key e = k) then carried_message e
                         else None) errs) as Hin by (rewrite Hrec; left).
  apply list_elem_of_omap in Hin as (e & Hin & He).
  destruct (decide (error_key e = k)) as [<-|]; [|done].
  destruct Hnotin. apply list_elem_of_omap. exists e. by rewrite He.
Qed.

Lemma carried_keys_cons e errs :
  carried_keys (e :: errs) =
    match carried_message e with
    | Some _ => error_key e :: carried_keys errs
    | None => carried_keys errs
    end.
Proof. unfold carried_keys. cbn. by destruct (carried_message e). Qed.

Lemma recorded_under_NoDup k errs :
  NoDup (carried_keys errs) → length (recorded_under k errs) ≤ 1.
Proof.
  induction errs as [|e errs IH]; [cbn; lia|].
  rewrite recorded_under_cons, carried_keys_cons.
  destruct (carried_message e) as [message|].
  - intros [Hnotin Hrest]%NoDup_cons.
    destruct (decide (error_key e = k)) as [<-|]; [|by apply IH].
    by rewrite recorded_under_not_carried.
  - intros Hrest. destruct (decide (error_key e = k)); by apply IH.
Qed.

Lemma collapsed_Permutation errs errs' k :
  errs ≡ₚ errs' → NoDup (carried_keys errs) →
  collapsed errs k = collapsed errs' k.
Proof.
  intros Hperm Hkeys. unfold collapsed.
  assert (recorded_under k errs ≡ₚ recorded_under k errs') as Hrec
    by (unfold recorded_under; by rewrite Hperm).
  pose proof (recorded_under_NoDup k errs Hkeys) as Hlen.
  destruct (recorded_under k errs) as [|v [|w rest]]; cbn in Hlen; [| |lia].
  - by apply Permutation_nil_l in Hrec as ->.
  - by apply Permutation_singleton_l in Hrec as <-.
Qed.

(** The order in which a validator reports its errors matters through shared
    keys only: when no two reported errors with a message have the same key,
    a validator that reports the same errors in another order leads to the
    same result. *)
Theorem validateObject_order_irrelevant {Value : Type}
    (ajv ajv' : Ajv.Instance Value) (obj : Value)
    (schemaName : string) (validate validate' : Ajv.ValidateFunction Value)
    (verdict verdict' : Ajv.Verdict) :
  Ajv.getSchema ajv schemaName = Gives (Some validate) →
  Ajv.getSchema ajv' schemaName = Gives (Some validate') →
  validate obj = Gives verdict →
  validate' obj = Gives verdict' →
  Ajv.passed verdict = Ajv.passed verdict' →
  or_nil (Ajv.errors verdict) ≡ₚ or_nil (Ajv.errors verdict') →
  NoDup (carried_keys (or_nil (Ajv.errors verdict))) →
  validateObject ajv obj schemaName = validateObject ajv' obj schemaName.
Proof.
  intros Hget Hget' Hrun Hrun' Hpassed Hperm Hkeys.
  rewrite !validateObject_cases, Hget, Hget', Hrun, Hrun', <- Hpassed.
  destruct (Ajv.passed verdict); [done|].
  assert (foldl record_error ∅ (or_nil (Ajv.errors verdict))
            = foldl record_error ∅ (or_nil (Ajv.errors verdict')))
    as ->; [|done].
  apply map_eq. intros k.
  rewrite !foldl_record_error_lookup_empty.
  destruct (decide _); [done|]. by apply collapsed_Permutation.
Qed.

Lemma validateObject_order_irrelevant_witness :
  validateObject Fixture.ajv Fixture.nameless_project PROJECT_SCHEMA
  = validateObject (Fixture.only PROJECT_SCHEMA (reversed Fixture.projectSchema))
      Fixture.nameless_project PROJECT_SCHEMA.
Proof.
  apply (validateObject_order_irrelevant Fixture.ajv
           (Fixture.only PROJECT_SCHEMA (reversed Fixture.projectSchema))
           Fixture.nameless_project PROJECT_SCHEMA Fixture.projectSchema
           (reversed Fixture.projectSchema)
           (Fixture.verdict_of [Fixture.required_error "name";
                                Fixture.type_error Fixture.TNumber])
           (Fixture.verdict_of [Fixture.type_error Fixture.TNumber;
                                Fixture.required_error "name"])).
  - by vm_compute.
  - by vm_compute.
  - by vm_compute.
  - by vm_compute.
  - reflexivity.
  - apply perm_swap.
  - apply (bool_decide_unpack _). by vm_compute.
Defined.

(** *** What a cast can do *)

Lemma safeCastObject_cases {Value : Type} (ajv : Ajv.Instance Value)
    (obj : Value) (schemaName : string) :
  (safeCastObject ajv obj schemaName = Run [] (Return obj)
   ∧ ∃ validate verdict,
       Ajv.getSchema ajv schemaName = Gives (Some validate)
       ∧ validate obj = Gives verdict
       ∧ Ajv.passed verdict = true)
  ∨ (∃ errs,
       safeCastObject ajv obj schemaName
         = Run [Warn errs] (Throw (Error ("Invalid " +:+ schemaName)))
       ∧ validateObject ajv obj schemaName
         = mret {| valid := false; errors := errs |})
  ∨ (∃ detail,
       safeCastObject ajv obj schemaName = Run [] (Throw (AjvFailure detail))
       ∧ validateObject ajv obj schemaName = throw (AjvFailure detail)).
Proof.
  destruct (validateObject ajv obj schemaName) as [out [result|e]] eqn:Hrun.
  - assert (out = []) as ->.
    { revert Hrun. rewrite validateObject_cases.
      destruct (Ajv.getSchema ajv schemaName) as [[validate|]|];
        [destruct (validate obj)|..]; by intros [= <- _]. }
    rewrite (safeCastObject_after _ _ _ _ Hrun).
    revert Hrun. rewrite validateObject_cases.
    destruct (Ajv.getSchema ajv schemaName) as [[validate|]|]; [| |done].
    + destruct (validate obj) as [verdict|] eqn:Hverdict; [|done].
      destruct (Ajv.passed verdict) eqn:Hpassed; intros <-%mret_inj; cbn.
      * left. split; [done|]. by exists validate, verdict.
      * right. left. eauto.
    + intros <-%mret_inj. cbn. right. left. eauto.
  - right. right. revert Hrun. rewrite validateObject_cases.
    unfold safeCastObject. rewrite validateObject_cases.
    destruct (Ajv.getSchema ajv schemaName) as [[validate|]|detail]; [|done|].
    + destruct (validate obj) as [verdict|detail]; [done|].
      intros [= <- <-]. by exists detail.
    + intros [= <- <-]. by exists detail.
Qed.

(** A cast ends in one of three ways.  It returns, and then it returns its
    argument, has written nothing, and the schema is registered with a
    validator that passes the object.  Or it throws
    [Error("Invalid " + schemaName)] after exactly one warning, whose payload
    is the error map that [validateObject] returns for the object.  Or
    [validateObject] threw, by [getSchema] or by the validator, and the cast
    lets that exception through without a warning. *)
Theorem safeCastObject_outcomes {Value : Type}
    (ajv : Ajv.Instance Value) (obj : Value) (schemaName : string) :
  (∀ v, completion (safeCastObject ajv obj schemaName) = Return v →
        v = obj
        ∧ output (safeCastObject ajv obj schemaName) = []
        ∧ ∃ validate verdict,
            Ajv.getSchema ajv schemaName = Gives (Some validate)
            ∧ validate obj = Gives verdict
            ∧ Ajv.passed verdict = true)
  ∧ (∀ e, completion (safeCastObject ajv obj schemaName) = Throw e →
          (e = Error ("Invalid " +:+ schemaName)
           ∧ ∃ errs,
               output (safeCastObject ajv obj schemaName) = [Warn errs]
               ∧ validateObject ajv obj schemaName
                 = mret {| valid := false; errors := errs |})
          ∨ (∃ detail,
               e = AjvFailure detail
               ∧ output (safeCastObject ajv obj schemaName) = []
               ∧ validateObject ajv obj schemaName
                 = throw (AjvFailure detail))).
Proof.
  destruct (safeCastObject_cases ajv obj schemaName)
    as [[-> Hpassed]|[(errs & -> & Hrun)|(detail & -> & Hrun)]]; cbn; split.
  - by intros v [= <-].
  - done.
  - done.
  - intros e [= <-]. left. eauto.
  - done.
  - intros e [= <-]. right. eauto.
Qed.

Lemma safeCastObject_outcomes_witness :
  Fixture.good_project = Fixture.good_project
  ∧ output (safeCastObject Fixture.ajv Fixture.good_project PROJECT_SCHEMA) = []
  ∧ ∃ validate verdict,
      Ajv.getSchema Fixture.ajv PROJECT_SCHEMA = Gives (Some validate)
      ∧ validate Fixture.good_project = Gives verdict
      ∧ Ajv.passed verdict = true.
Proof.
  destruct (safeCastObject_outcomes Fixture.ajv Fixture.good_project
              PROJECT_SCHEMA) as [Hreturns _].
  apply Hreturns. by vm_compute.
Defined.

(** With a schema name for which [getSchema] gives [undefined], a cast warns
    with [schema: "Schema not found"] and throws the same error as for an
    invalid object: [Error("Invalid " + schemaName)]. *)
Theorem safeCastObject_schema_not_found {Value : Type}
    (ajv : Ajv.Instance Value) (obj : Value) (schemaName : string) :
  Ajv.getSchema ajv schemaName = Gives None →
  safeCastObject ajv obj schemaName
    = Run [Warn {[ "schema" := "Schema not found" ]}]
        (Throw (Error ("Invalid " +:+ schemaName))).
Proof.
  intros Hget.
  rewrite (safeCastObject_after ajv obj schemaName
             {| valid := false;
                errors := {[ "schema" := "Schema not found" ]} |}); [done|].
  by rewrite validateObject_cases, Hget.
Qed.

Lemma safeCastObject_schema_not_found_witness :
  safeCastObject Fixture.ajv Fixture.good_project "funding.json"
    = Run [Warn {[ "schema" := "Schema not found" ]}]
        (Throw (Error "Invalid funding.json")).
Proof.
  apply (safeCastObject_schema_not_found Fixture.ajv Fixture.good_project
           "funding.json").
  by vm_compute.
Defined.

Lemma ajv_project {Value : Type}
    (projectSchema collectionSchema urlSchema blockchainAddressSchema
       : Ajv.ValidateFunction Value) (elsewhere : Ajv.Instance Value) :
  Ajv.getSchema (ajv projectSchema collectionSchema urlSchema
                   blockchainAddressSchema elsewhere) PROJECT_SCHEMA
  = Gives (Some projectSchema).
Proof. done. Qed.

Lemma ajv_collection {Value : Type}
    (projectSchema collectionSchema urlSchema blockchainAddressSchema
       : Ajv.ValidateFunction Value) (elsewhere : Ajv.Instance Value) :
  Ajv.getSchema (ajv projectSchema collectionSchema urlSchema
                   blockchainAddressSchema elsewhere) COLLECTION_SCHEMA
  = Gives (Some collectionSchema).
Proof. done. Qed.

(** What a registered validator decides is what [validateObject] reports
    and what the cast does. *)
Lemma own_validator_decides {Value : Type} (ajv : Ajv.Instance Value)
    (obj : Value) (schemaName : string)
    (validate : Ajv.ValidateFunction Value) :
  Ajv.getSchema ajv schemaName = Gives (Some validate) →
  match validate obj with
  | Gives verdict =>
      (∃ result,
         validateObject ajv obj schemaName = mret result
         ∧ valid result = Ajv.passed verdict)
      ∧ (completion (safeCastObject ajv obj schemaName) = Return obj
         ↔ Ajv.passed verdict = true)
  | Raises detail =>
      validateObject ajv obj schemaName = throw (AjvFailure detail)
      ∧ safeCastObject ajv obj schemaName = throw (AjvFailure detail)
  end.
Proof.
  intros Hget. unfold safeCastObject. rewrite validateObject_cases, Hget.
  destruct (validate obj) as [verdict|detail]; [|done].
  rewrite M_bind_ret. destruct (Ajv.passed verdict); cbn.
  - split; [by eexists|done].
  - split; [by eexists|]. by split.
Qed.

(** The public functions use the validator of their own schema:
    [validateProject] reports as valid exactly what the project validator
    passes and [safeCastProject] returns exactly then, whatever the other
    three schemas are; when the project validator throws, both let its
    exception through.  Likewise for collections. *)
Theorem public_functions_use_own_schema {Value : Type}
    (projectSchema collectionSchema urlSchema blockchainAddressSchema
       : Ajv.ValidateFunction Value) (elsewhere : Ajv.Instance Value)
    (obj : Value) :
  match projectSchema obj with
  | Gives verdict =>
      (∃ result,
         validateProject projectSchema collectionSchema urlSchema
           blockchainAddressSchema elsewhere obj = mret result
         ∧ valid result = Ajv.passed verdict)
      ∧ (completion (safeCastProject projectSchema collectionSchema urlSchema
                       blockchainAddressSchema elsewhere obj) = Return obj
         ↔ Ajv.passed verdict = true)
  | Raises detail =>
      validateProject projectSchema collectionSchema urlSchema
        blockchainAddressSchema elsewhere obj = throw (AjvFailure detail)
      ∧ safeCastProject projectSchema collectionSchema urlSchema
          blockchainAddressSchema elsewhere obj = throw (AjvFailure detail)
  end
  ∧ match collectionSchema obj with
    | Gives verdict =>
        (∃ result,
           validateCollection projectSchema collectionSchema urlSchema
             blockchainAddressSchema elsewhere obj = mret result
           ∧ valid result = Ajv.passed verdict)
        ∧ (completion (safeCastCollection projectSchema collectionSchema
                         urlSchema blockchainAddressSchema elsewhere obj)
             = Return obj
           ↔ Ajv.passed verdict = true)
    | Raises detail =>
        validateCollection projectSchema collectionSchema urlSchema
          blockchainAddressSchema elsewhere obj = throw (AjvFailure detail)
        ∧ safeCastCollection projectSchema collectionSchema urlSchema
            blockchainAddressSchema elsewhere obj = throw (AjvFailure detail)
    end.
Proof.
  split.
  - apply (own_validator_decides
             (ajv projectSchema collectionSchema urlSchema
                blockchainAddressSchema elsewhere) obj PROJECT_SCHEMA
             projectSchema), ajv_project.
  - apply (own_validator_decides
             (ajv projectSchema collectionSchema urlSchema
                blockchainAddressSchema elsewhere) obj COLLECTION_SCHEMA
             collectionSchema), ajv_collection.
Qed.

(** *** What a load can do *)

Section LoaderOutcomes.

Context {Value : Type}.
Context (DEFAULT_FORMAT : FileFormat).
Context (readFile : string → Outcome string).
Context (JSON_parse YAML_parse : string → Outcome Value).
Context (projectSchema collectionSchema : Ajv.ValidateFunction Value).
Context (urlSchema blockchainAddressSchema : Ajv.ValidateFunction Value).
Context (elsewhere : Ajv.Instance Value).

#[local] Abbreviation readFileToObject :=
  (readFileToObject readFile JSON_parse YAML_parse).
#[local] Abbreviation readProjectFile :=
  (readProjectFile DEFAULT_FORMAT readFile JSON_parse YAML_parse
     projectSchema collectionSchema urlSchema blockchainAddressSchema
     elsewhere).
#[local] Abbreviation readCollectionFile :=
  (readCollectionFile DEFAULT_FORMAT readFile JSON_parse YAML_parse
     projectSchema collectionSchema urlSchema blockchainAddressSchema
     elsewhere).

(** The parser that the format selects, if it selects one. *)
Lemma readFileToObject_cases
    (ajv : Ajv.Instance Value)
    (filename : string) (format : FileFormat) (schemaName : string) :
  readFileToObject ajv filename format schemaName =
    match readFile filename with
    | Raises detail => Run [] (Throw (IOFailure detail))
    | Gives contents =>
        if String.eqb format "JSON" then
          match JSON_parse contents with
          | Gives obj => safeCastObject ajv obj schemaName
          | Raises detail => Run [] (Throw (ParseFailed detail))
          end
        else if String.eqb format "YAML" then
          match YAML_parse contents with
          | Gives obj => safeCastObject ajv obj schemaName
          | Raises detail => Run [] (Throw (ParseFailed detail))
          end
        else Run [] (Throw (UnreachableFormat format))
    end.
Proof.
  unfold readFileToObject.
  destruct (readFile filename) as [contents|detail]; [|done].
  rewrite call_Gives, M_bind_ret.
  destruct (String.eqb format "JSON").
  { destruct (JSON_parse contents); [|done]. by rewrite call_Gives, M_bind_ret. }
  destruct (String.eqb format "YAML"); [|done].
  destruct (YAML_parse contents); [|done]. by rewrite call_Gives, M_bind_ret.
Qed.

(** When the file cannot be read, the rejection of [readFile] is what the
    load throws, whatever the format, a known one or not, and whatever the
    schema; nothing is parsed, validated or written.  The same holds for
    [readProjectFile] and [readCollectionFile] with any options. *)
Theorem readFileToObject_read_failure
    (ajv : Ajv.Instance Value)
    (filename detail : string) :
  readFile filename = Raises detail →
  (∀ format schemaName,
     readFileToObject ajv filename format schemaName
       = Run [] (Throw (IOFailure detail)))
  ∧ (∀ opts,
       readProjectFile filename opts = Run [] (Throw (IOFailure detail))
       ∧ readCollectionFile filename opts
         = Run [] (Throw (IOFailure detail))).
Proof.
  intros Hread.
  assert (∀ ajv' format schemaName,
            readFileToObject ajv' filename format schemaName
              = Run [] (Throw (IOFailure detail))) as Hthrows.
  { intros. by rewrite readFileToObject_cases, Hread. }
  split; [done|]. intros opts. unfold readProjectFile, readCollectionFile.
  by rewrite !Hthrows.
Qed.

(** A value that a load returns is the value that the parser of the format
    made of the contents of the file, the format is one of the two known
    ones, the schema is registered with a validator that passes the value,
    and nothing was written to the console. *)
Theorem readFileToObject_returns_validated
    (ajv : Ajv.Instance Value)
    (filename : string) (format : FileFormat) (schemaName : string)
    (obj : Value) :
  completion (readFileToObject ajv filename format schemaName) = Return obj →
  output (readFileToObject ajv filename format schemaName) = []
  ∧ ∃ contents validate verdict,
      readFile filename = Gives contents
      ∧ (format = "JSON" ∧ JSON_parse contents = Gives obj
         ∨ format = "YAML" ∧ YAML_parse contents = Gives obj)
      ∧ Ajv.getSchema ajv schemaName = Gives (Some validate)
      ∧ validate obj = Gives verdict
      ∧ Ajv.passed verdict = true.
Proof.
  rewrite readFileToObject_cases.
  destruct (readFile filename) as [contents|detail]; [|done].
  assert (∀ parsed,
            completion (safeCastObject ajv parsed schemaName) = Return obj →
            output (safeCastObject ajv parsed schemaName) = []
            ∧ parsed = obj
            ∧ ∃ validate verdict,
                Ajv.getSchema ajv schemaName = Gives (Some validate)
                ∧ validate obj = Gives verdict
                ∧ Ajv.passed verdict = true) as Hcast.
  { intros parsed.
    destruct (safeCastObject_cases ajv parsed schemaName)
      as [[-> Hpassed]|[(errs & -> & _)|(detail & -> & _)]]; cbn; [|done..].
    by intros [= ->]. }
  destruct (String.eqb format "JSON") eqn:HJSON.
  { apply String.eqb_eq in HJSON as ->.
    destruct (JSON_parse contents) as [parsed|] eqn:Hparse; [|done].
    intros (Hout & -> & validate & verdict & Hget & Hrun & Hpassed)%Hcast.
    split; [done|]. exists contents, validate, verdict.
    split_and!; [done | by left | done..]. }
  destruct (String.eqb format "YAML") eqn:HYAML; [|done].
  apply String.eqb_eq in HYAML as ->.
  destruct (YAML_parse contents) as [parsed|] eqn:Hparse; [|done].
  intros (Hout & -> & validate & verdict & Hget & Hrun & Hpassed)%Hcast.
  split; [done|]. exists contents, validate, verdict.
  split_and!; [done | by right | done..].
Qed.

(** A load writes to the console at most once, and only on the way to
    throwing [Error("Invalid " + schemaName)]: a failure to read, a parse
    error and an unknown format leave the console empty, and so does a load
    that returns. *)
Theorem readFileToObject_console
    (ajv : Ajv.Instance Value)
    (filename : string) (format : FileFormat) (schemaName : string) :
  output (readFileToObject ajv filename format schemaName) = []
  ∨ ∃ errs,
      readFileToObject ajv filename format schemaName
        = Run [Warn errs] (Throw (Error ("Invalid " +:+ schemaName))).
Proof.
  rewrite readFileToObject_cases.
  assert (∀ parsed,
            output (safeCastObject ajv parsed schemaName) = []
            ∨ ∃ errs,
                safeCastObject ajv parsed schemaName
                  = Run [Warn errs] (Throw (Error ("Invalid " +:+ schemaName))))
    as Hcast.
  { intros parsed.
    destruct (safeCastObject_cases ajv parsed schemaName)
      as [[-> _]|[(errs & -> & _)|(detail & -> & _)]];
      [by left | right; eauto | by left]. }
  destruct (readFile filename) as [contents|]; [|by left].
  destruct (String.eqb format "JSON").
  { destruct (JSON_parse contents); [apply Hcast | by left]. }
  destruct (String.eqb format "YAML"); [|by left].
  destruct (YAML_parse contents); [apply Hcast | by left].
Qed.

(** The format matters for parsing only: a file loaded as JSON and a file
    loaded as YAML whose texts parse to the same value end the same way,
    with the same console output. *)
Theorem readFileToObject_format_independent
    (ajv : Ajv.Instance Value)
    (json_file yaml_file json_text yaml_text schemaName : string)
    (obj : Value) :
  readFile json_file = Gives json_text →
  JSON_parse json_text = Gives obj →
  readFile yaml_file = Gives yaml_text →
  YAML_parse yaml_text = Gives obj →
  readFileToObject ajv json_file "JSON" schemaName
    = readFileToObject ajv yaml_file "YAML" schemaName
  ∧ readFileToObject ajv json_file "JSON" schemaName
    = safeCastObject ajv obj schemaName.
Proof.
  intros Hjson Hparse_json Hyaml Hparse_yaml.
  rewrite !readFileToObject_cases, Hjson, Hyaml. cbn.
  by rewrite Hparse_json, Hparse_yaml.
Qed.

End LoaderOutcomes.

Lemma readFileToObject_read_failure_witness :
  readFileToObject Fixture.readFile Fixture.JSON_parse Fixture.YAML_parse
      Fixture.ajv "absent.yaml" "TOML" PROJECT_SCHEMA
    = Run [] (Throw (IOFailure "ENOENT: no such file or directory"))
  ∧ readCollectionFile "YAML" Fixture.readFile Fixture.JSON_parse
        Fixture.YAML_parse Fixture.projectSchema Fixture.collectionSchema
        Fixture.urlSchema Fixture.blockchainAddressSchema (λ _, Gives None)
        "absent.yaml" None
    = Run [] (Throw (IOFailure "ENOENT: no such file or directory")).
Proof.
  destruct (readFileToObject_read_failure "YAML" Fixture.readFile
              Fixture.JSON_parse Fixture.YAML_parse Fixture.projectSchema
              Fixture.collectionSchema Fixture.urlSchema
              Fixture.blockchainAddressSchema (λ _, Gives None) Fixture.ajv
              "absent.yaml"
              "ENOENT: no such file or directory")
    as [Hgeneric Hpublic]; [by vm_compute|].
  split; [apply Hgeneric | apply Hpublic].
Defined.

Lemma readFileToObject_format_independent_witness :
  readFileToObject Fixture.readFile Fixture.JSON_parse Fixture.YAML_parse
      Fixture.ajv "empty.json" "JSON" PROJECT_SCHEMA
  = readFileToObject Fixture.readFile Fixture.JSON_parse Fixture.YAML_parse
      Fixture.ajv "empty.json" "YAML" PROJECT_SCHEMA.
Proof.
  apply (readFileToObject_format_independent Fixture.readFile
           Fixture.JSON_parse Fixture.YAML_parse Fixture.ajv
           "empty.json" "empty.json" "{}" "{}" PROJECT_SCHEMA
           (Fixture.Object [])); by vm_compute.
Defined.

Lemma readFileToObject_returns_validated_witness :
  ∃ contents validate verdict,
    Fixture.readFile "oso.yaml" = Gives contents
    ∧ ("YAML" = "JSON"
         ∧ Fixture.JSON_parse contents
           = Gives (Fixture.Object [("name", Fixture.Str "oso")])
       ∨ "YAML" = "YAML"
         ∧ Fixture.YAML_parse contents
           = Gives (Fixture.Object [("name", Fixture.Str "oso")]))
    ∧ Ajv.getSchema
        (Fixture.only PROJECT_SCHEMA
           (Fixture.compile
              {| Fixture.required := ["name"];
                 Fixture.properties := [("name", Fixture.TString)] |}))
        PROJECT_SCHEMA = Gives (Some validate)
    ∧ validate (Fixture.Object [("name", Fixture.Str "oso")]) = Gives verdict
    ∧ Ajv.passed verdict = true.
Proof.
  apply (readFileToObject_returns_validated Fixture.readFile
           Fixture.JSON_parse Fixture.YAML_parse
           (Fixture.only PROJECT_SCHEMA
              (Fixture.compile
                 {| Fixture.required := ["name"];
                    Fixture.properties := [("name", Fixture.TString)] |}))
           "oso.yaml" "YAML" PROJECT_SCHEMA
           (Fixture.Object [("name", Fixture.Str "oso")])).
  by vm_compute.
Defined.
